(** * RomM front-end API client: [frontend/src/services/api.js]

    A shallow embedding of the seven exported functions of [api.js] and of
    the fragment of JavaScript, axios and the browser DOM they rely on:

    - JavaScript values, with the [ToString] and [ToBoolean] coercions that
      template literals and the [||] operator perform;
    - promises by their settled outcome, [async] functions and [.then];
    - axios as a transport that records each request it is handed and
      settles it the way the network decides;
    - the anchor-click save sequence of the download helper, over a small
      element heap and object-URL registry. *)

From Stdlib Require Import ZArith List Ascii String DecimalString Lia.
From stdpp Require Import base option list strings.
#[local] Set Warnings "-register-all".
Import ListNotations.
Local Open Scope string_scope.
Local Open Scope list_scope.

(** ** JavaScript values *)

Module JS.

(** Numbers are the integers the client handles (rom ids, page sizes).
    [JNum n] stands for the JavaScript number [n] when [n] is a safe
    integer, [|n| <= 2^53 - 1] (see [isSafeInteger]): those are exactly
    representable and print in plain decimal.  Beyond that range a
    JavaScript number prints by shortest round-trip digits, and from 1e21
    on in exponent notation, which [string_of_Z] does not follow; [NaN]
    and fractions are outside [JNum] as well. *)
Inductive JSValue : Type :=
| JUndefined
| JNull
| JBool (b : bool)
| JNum (n : Z)
| JStr (s : string)
| JArr (elems : list JSValue)
| JObj (fields : list (string * JSValue)).

(** A plain object: own properties in insertion order. *)
Definition JSObject : Type := list (string * JSValue).

(** Property read [o.k]; a missing property reads as [undefined]. *)
Fixpoint prop (o : JSObject) (k : string) : JSValue :=
  match o with
  | [] => JUndefined
  | (k', v) :: rest => if String.eqb k' k then v else prop rest k
  end.

(** [Number.MAX_SAFE_INTEGER], 2^53 - 1. *)
Definition MAX_SAFE_INTEGER : Z := 9007199254740991.

(** [Number.isSafeInteger], on integers. *)
Definition isSafeInteger (n : Z) : bool :=
  ((- MAX_SAFE_INTEGER <=? n) && (n <=? MAX_SAFE_INTEGER))%Z.

(** Decimal printing; it is what [Number::toString] gives on safe
    integers. *)
Definition string_of_Z (n : Z) : string :=
  NilZero.string_of_int (Z.to_int n).

(** [ToString], as applied by template-literal substitution.  An array
    prints as [join(",")], where [undefined] and [null] elements print as
    the empty string; a plain object prints as ["[object Object]"]. *)
Fixpoint ToString (v : JSValue) : string :=
  match v with
  | JUndefined => "undefined"
  | JNull => "null"
  | JBool true => "true"
  | JBool false => "false"
  | JNum n => string_of_Z n
  | JStr s => s
  | JArr elems =>
      String.concat ","
        ((fix each (l : list JSValue) : list string :=
            match l with
            | [] => []
            | x :: rest =>
                match x with
                | JUndefined | JNull => ""
                | _ => ToString x
                end :: each rest
            end) elems)
  | JObj _ => "[object Object]"
  end.

(** The string an array element contributes to [join]. *)
Definition join_elem (x : JSValue) : string :=
  match x with
  | JUndefined | JNull => ""
  | _ => ToString x
  end.

(** [ToBoolean]: the falsy values are [undefined], [null], [false], [0]
    and the empty string; arrays and objects are truthy, empty or not. *)
Definition ToBoolean (v : JSValue) : bool :=
  match v with
  | JUndefined | JNull => false
  | JBool b => b
  | JNum n => negb (Z.eqb n 0)
  | JStr s => negb (String.eqb s "")
  | JArr _ | JObj _ => true
  end.

(** [a || b] *)
Definition or (a b : JSValue) : JSValue :=
  if ToBoolean a then a else b.

(** Default of a destructured parameter, [{ k = d }]: the default applies
    exactly when the property reads as [undefined]. *)
Definition defaulted (d v : JSValue) : JSValue :=
  match v with
  | JUndefined => d
  | _ => v
  end.

(** Template literals: literal chunks interleaved with substitutions. *)
Inductive TemplatePart : Type :=
| Lit (s : string)
| Sub (v : JSValue).

Definition part_string (p : TemplatePart) : string :=
  match p with
  | Lit s => s
  | Sub v => ToString v
  end.

Definition template (parts : list TemplatePart) : string :=
  String.concat "" (List.map part_string parts).

End JS.

Import JS.

(** ** Promises, the world, and effects *)

(** A promise is represented by the outcome it settles with.  A rejection
    reason is an arbitrary JavaScript value. *)
Inductive Settled (A : Type) : Type :=
| Fulfilled (value : A)
| Rejected (reason : JSValue).
Arguments Fulfilled {A} value.
Arguments Rejected {A} reason.

Inductive Method : Type := GET | PUT | PATCH | DELETE.

(** What one axios call hands to the HTTP layer: the method, the URL, the
    request body (second argument of [patch] and [put]) and the
    [responseType] entry of the config object when one is passed. *)
Record Request : Type := mkRequest {
  req_method : Method;
  req_url : string;
  req_data : option JSValue;
  req_responseType : option string
}.

Record Response : Type := mkResponse {
  res_status : Z;
  res_data : JSValue
}.

(** [new Blob(parts)] *)
Record Blob : Type := mkBlob { blob_parts : list JSValue }.

(** The string returned by [URL.createObjectURL]: an opaque reference into
    the object-URL registry. *)
Inductive ObjectURL : Type := BlobURL (slot : nat).

(** A DOM element with the two attributes the download helper assigns. *)
Record Element : Type := mkElement {
  el_tag : string;
  el_href : option ObjectURL;
  el_download : option string
}.

(** A file-save action of the browser: the suggested name and the content. *)
Record Save : Type := mkSave {
  save_name : string;
  save_content : Blob
}.

Record World : Type := mkWorld {
  requests : list Request;     (* requests handed to axios, oldest first *)
  elements : list Element;     (* element heap; a handle is an index *)
  object_urls : list Blob;     (* registry of [URL.createObjectURL] *)
  saves : list Save;           (* save actions triggered, oldest first *)
  unhandled : list JSValue     (* rejections no handler ever observed *)
}.

Definition empty_world : World := mkWorld [] [] [] [] [].

(** State passing over the world. *)
Definition Eff (A : Type) : Type := World -> A * World.

Definition ret {A} (a : A) : Eff A := fun w => (a, w).

Definition bind {A B} (c : Eff A) (k : A -> Eff B) : Eff B :=
  fun w => let (a, w') := c w in k a w'.

Declare Scope eff_scope.
Delimit Scope eff_scope with eff.
Notation "x <- c ;; k" := (bind c (fun x => k))
  (at level 100, c at next level, right associativity) : eff_scope.
Notation "c ;;; k" := (bind c (fun _ => k))
  (at level 100, right associativity) : eff_scope.
Local Open Scope eff_scope.

Definition result {A} (c : Eff A) (w : World) : A := fst (c w).
Definition after {A} (c : Eff A) (w : World) : World := snd (c w).

(** [p.then(onFulfilled)]: the callback runs when [p] fulfils and its return
    value fulfils the derived promise; a rejection of [p] skips the callback
    and rejects the derived promise with the same reason. *)
Definition then_ {A B} (p : Settled A) (onFulfilled : A -> Eff B)
  : Eff (Settled B) :=
  match p with
  | Fulfilled v => b <- onFulfilled v ;; ret (Fulfilled b)
  | Rejected e => ret (Rejected e)
  end.

(** A promise used as an expression statement: nobody holds it, so a
    rejection reaches no handler. *)
Definition discard {A} (p : Settled A) : Eff unit :=
  fun w =>
    match p with
    | Fulfilled _ => (tt, w)
    | Rejected e =>
        (tt, mkWorld (requests w) (elements w) (object_urls w) (saves w)
                     (unhandled w ++ [e]))
    end.

(** *** The DOM calls of the download helper *)

(** [document.createElement(tag)] *)
Definition createElement (tag : string) : Eff nat :=
  fun w =>
    (length (elements w),
     mkWorld (requests w) (elements w ++ [mkElement tag None None])
             (object_urls w) (saves w) (unhandled w)).

(** [window.URL.createObjectURL(blob)] *)
Definition createObjectURL (b : Blob) : Eff ObjectURL :=
  fun w =>
    (BlobURL (length (object_urls w)),
     mkWorld (requests w) (elements w) (object_urls w ++ [b])
             (saves w) (unhandled w)).

Definition update_element (h : nat) (f : Element -> Element) : Eff unit :=
  fun w =>
    match elements w !! h with
    | Some e =>
        (tt, mkWorld (requests w) (<[h := f e]> (elements w))
                     (object_urls w) (saves w) (unhandled w))
    | None => (tt, w)
    end.

(** [a.href = u] *)
Definition set_href (h : nat) (u : ObjectURL) : Eff unit :=
  update_element h (fun e => mkElement (el_tag e) (Some u) (el_download e)).

(** [a.download = name] *)
Definition set_download (h : nat) (name : string) : Eff unit :=
  update_element h (fun e => mkElement (el_tag e) (el_href e) (Some name)).

(** [a.click()]: an anchor that carries a [download] attribute and whose
    [href] is a live object URL makes the browser save the blob under the
    attribute's name.  Any other click saves nothing. *)
Definition click (h : nat) : Eff unit :=
  fun w =>
    match elements w !! h with
    | Some (mkElement "a" (Some (BlobURL slot)) (Some name)) =>
        match object_urls w !! slot with
        | Some b =>
            (tt, mkWorld (requests w) (elements w) (object_urls w)
                         (saves w ++ [mkSave name b]) (unhandled w))
        | None => (tt, w)
        end
    | _ => (tt, w)
    end.

(** ** axios and the exported functions *)

Section Api.

(** The network: how the HTTP layer settles each request.  A transport
    failure (network error, non-2xx status) is a rejection. *)
Variable transport : Request -> Settled Response.

(** Every axios call records the request and returns the promise the
    transport settles. *)
Definition axios_request (r : Request) : Eff (Settled Response) :=
  fun w =>
    (transport r,
     mkWorld (requests w ++ [r]) (elements w) (object_urls w)
             (saves w) (unhandled w)).

(** [axios.get(url)] and [axios.get(url, { responseType })] *)
Definition axios_get (url : string) (responseType : option string)
  : Eff (Settled Response) :=
  axios_request (mkRequest GET url None responseType).

(** [axios.patch(url, data)] *)
Definition axios_patch (url : string) (data : JSValue)
  : Eff (Settled Response) :=
  axios_request (mkRequest PATCH url (Some data) None).

(** [axios.delete(url)] *)
Definition axios_delete (url : string) : Eff (Settled Response) :=
  axios_request (mkRequest DELETE url None None).

(** [axios.put(url, data)] *)
Definition axios_put (url : string) (data : JSValue)
  : Eff (Settled Response) :=
  axios_request (mkRequest PUT url (Some data) None).

(** [return p] in an [async] function, [p] a promise: the function's own
    promise adopts the settlement of [p]. *)
Definition async_return {A} (p : Settled A) : Eff (Settled A) := ret p.

(** An [async] function whose body ends without [return]: its promise
    fulfils with [undefined]. *)
Definition async_end : Eff (Settled JSValue) := ret (Fulfilled JUndefined).

Definition fetchPlatformsApi : Eff (Settled Response) :=
  p <- axios_get "/api/platforms" None ;;
  async_return p.

(** The single argument is destructured:
    [{ platform, cursor = "", size = 60, searchTerm = "" }]. *)
Definition fetchRomsApi (arg : JSObject) : Eff (Settled Response) :=
  let platform := prop arg "platform" in
  let cursor := defaulted (JStr "") (prop arg "cursor") in
  let size := defaulted (JNum 60) (prop arg "size") in
  let searchTerm := defaulted (JStr "") (prop arg "searchTerm") in
  p <- axios_get
         (template [Lit "/api/platforms/"; Sub platform;
                    Lit "/roms?cursor="; Sub cursor;
                    Lit "&size="; Sub size;
                    Lit "&search_term="; Sub searchTerm])
         None ;;
  async_return p.

Definition fetchRomApi (platform rom : JSValue) : Eff (Settled Response) :=
  p <- axios_get
         (template [Lit "/api/platforms/"; Sub platform;
                    Lit "/roms/"; Sub rom])
         None ;;
  async_return p.

Definition downloadRomApi (rom : JSObject) (files : JSValue)
  : Eff (Settled JSValue) :=
  p <- axios_get
         (template [Lit "/api/platforms/"; Sub (prop rom "p_slug");
                    Lit "/roms/"; Sub (prop rom "id");
                    Lit "/download?files=";
                    Sub (JS.or files (prop rom "files"))])
         (Some "blob") ;;
  q <- then_ p (fun response =>
         a <- createElement "a" ;;
         u <- createObjectURL (mkBlob [res_data response]) ;;
         set_href a u ;;;
         set_download a (template [Sub (prop rom "r_name"); Lit ".zip"]) ;;;
         click a) ;;
  discard q ;;;
  async_end.

Definition updateRomApi (rom : JSObject) (updatedRom : JSValue)
  : Eff (Settled Response) :=
  p <- axios_patch
         (template [Lit "/api/platforms/"; Sub (prop rom "p_slug");
                    Lit "/roms/"; Sub (prop rom "id")])
         (JObj [("updatedRom", updatedRom)]) ;;
  async_return p.

Definition deleteRomApi (rom : JSObject) (deleteFromFs : JSValue)
  : Eff (Settled Response) :=
  p <- axios_delete
         (template [Lit "/api/platforms/"; Sub (prop rom "p_slug");
                    Lit "/roms/"; Sub (prop rom "id");
                    Lit "?filesystem="; Sub deleteFromFs]) ;;
  async_return p.

Definition searchRomIGDBApi (searchTerm searchBy rom : JSValue)
  : Eff (Settled Response) :=
  p <- axios_put
         (template [Lit "/api/search/roms/igdb?search_term="; Sub searchTerm;
                    Lit "&search_by="; Sub searchBy])
         (JObj [("rom", rom)]) ;;
  async_return p.

(** The six operations that hand the promise of their axios call back to
    the caller, under the names the specification gives them. *)
Inductive ApiCall : Type :=
| listPlatforms
| listRoms (arg : JSObject)
| getRom (platform rom : JSValue)
| updateRom (rom : JSObject) (updatedRom : JSValue)
| deleteRom (rom : JSObject) (deleteFromFs : JSValue)
| searchRomMetadata (searchTerm searchBy rom : JSValue).

Definition perform (c : ApiCall) : Eff (Settled Response) :=
  match c with
  | listPlatforms => fetchPlatformsApi
  | listRoms arg => fetchRomsApi arg
  | getRom platform rom => fetchRomApi platform rom
  | updateRom rom updatedRom => updateRomApi rom updatedRom
  | deleteRom rom deleteFromFs => deleteRomApi rom deleteFromFs
  | searchRomMetadata searchTerm searchBy rom =>
      searchRomIGDBApi searchTerm searchBy rom
  end.

End Api.

(** ** Vocabulary of the statements *)

(** The world after one more request has been handed to axios. *)
Definition with_request (r : Request) (w : World) : World :=
  mkWorld (requests w ++ [r]) (elements w) (object_urls w)
          (saves w) (unhandled w).

(** Running [c] from [w] hands exactly the request [r] to axios. *)
Definition issues {A} (c : Eff A) (w : World) (r : Request) : Prop :=
  requests (after c w) = requests w ++ [r].

(** The request of the download endpoint for a given [files] parameter. *)
Definition download_request (p_slug : string) (id : Z) (files : string)
  : Request :=
  mkRequest GET
    ("/api/platforms/" +:+ p_slug +:+ "/roms/" +:+ string_of_Z id
       +:+ "/download?files=" +:+ files)
    None (Some "blob").

(** A value of the [files] argument that names files: an array of file
    identifiers or a single non-empty identifier. *)
Definition is_file_set (v : JSValue) : bool :=
  match v with
  | JArr _ => true
  | JStr s => negb (String.eqb s "")
  | _ => false
  end.

(** Sample data: a rom record, a network that answers every request and a
    network that is down. *)
Definition zelda : JSObject :=
  [("id", JNum 7); ("p_slug", JStr "nes"); ("r_name", JStr "Zelda");
   ("files", JArr [JStr "a.nes"; JStr "b.nes"])].

Definition network_up : Request -> Settled Response :=
  fun _ => Fulfilled (mkResponse 200 (JStr "payload")).

Definition network_down : Request -> Settled Response :=
  fun _ => Rejected (JStr "Network Error").

(** ** Basic facts about the embedding *)

Arguments axios_request transport r w /.
Arguments ret {A} a w /.
Arguments bind {A B} c k w /.
Arguments async_return {A} p /.

Lemma MAX_SAFE_INTEGER_value : MAX_SAFE_INTEGER = (2 ^ 53 - 1)%Z.
Proof. reflexivity. Qed.

Lemma isSafeInteger_bounds (n : Z) :
  isSafeInteger n = true
  <-> (- (2 ^ 53 - 1) <= n <= 2 ^ 53 - 1)%Z.
Proof.
  unfold isSafeInteger. rewrite andb_true_iff, !Z.leb_le.
  rewrite MAX_SAFE_INTEGER_value. reflexivity.
Qed.

Lemma string_of_Z_example : string_of_Z 42 = "42" /\ string_of_Z (-3) = "-3".
Proof. split; reflexivity. Qed.

Lemma prop_missing (k : string) : prop [] k = JUndefined.
Proof. reflexivity. Qed.

Lemma prop_first (k : string) (v : JSValue) (o : JSObject) :
  prop ((k, v) :: o) k = v.
Proof. cbn. now rewrite String.eqb_refl. Qed.

Lemma ToString_JArr (elems : list JSValue) :
  ToString (JArr elems) = String.concat "," (List.map join_elem elems).
Proof. reflexivity. Qed.

Lemma ToString_string_array (names : list string) :
  ToString (JArr (List.map JStr names)) = String.concat "," names.
Proof.
  rewrite ToString_JArr, List.map_map. f_equal.
  induction names as [|s rest IH]; [reflexivity|].
  cbn [List.map]. now rewrite IH.
Qed.

Lemma or_truthy (a b : JSValue) : ToBoolean a = true -> JS.or a b = a.
Proof. unfold JS.or. now intros ->. Qed.

Lemma or_falsy (a b : JSValue) : ToBoolean a = false -> JS.or a b = b.
Proof. unfold JS.or. now intros ->. Qed.

Lemma defaulted_undefined (d : JSValue) : defaulted d JUndefined = d.
Proof. reflexivity. Qed.

Lemma defaulted_present (d v : JSValue) :
  v <> JUndefined -> defaulted d v = v.
Proof. destruct v; intros H; try reflexivity. now destruct H. Qed.

Section ApiFacts.

Variable transport : Request -> Settled Response.

(** Each of the six forwarding operations hands exactly one request to
    axios and resolves the way the transport settles that request. *)
Lemma perform_one_request (c : ApiCall) (w : World) :
  exists r : Request,
    perform transport c w = (transport r, with_request r w).
Proof.
  destruct c; cbn; eexists; reflexivity.
Qed.

Lemma requests_with_request (r : Request) (w : World) :
  requests (with_request r w) = requests w ++ [r].
Proof. reflexivity. Qed.

End ApiFacts.

(** *** The save sequence and the download helper, in closed form *)

Lemma lookup_snoc_last {A} (l : list A) (x : A) :
  (l ++ [x]) !! length l = Some x.
Proof. now apply list_lookup_middle. Qed.

Lemma insert_snoc_last {A} (l : list A) (x y : A) :
  <[length l := y]> (l ++ [x]) = l ++ [y].
Proof.
  replace (length l) with (length l + 0) by lia.
  now rewrite insert_app_r.
Qed.

(** The five DOM steps of the [.then] callback: one anchor is created and
    clicked, one blob is registered, one save is triggered. *)
Lemma save_sequence (payload : JSValue) (name : string) (w : World) :
  (a <- createElement "a" ;;
   u <- createObjectURL (mkBlob [payload]) ;;
   set_href a u ;;;
   set_download a name ;;;
   click a) w
  = (tt,
     mkWorld (requests w)
             (elements w
                ++ [mkElement "a" (Some (BlobURL (length (object_urls w))))
                              (Some name)])
             (object_urls w ++ [mkBlob [payload]])
             (saves w ++ [mkSave name (mkBlob [payload])])
             (unhandled w)).
Proof.
  unfold bind, createElement, createObjectURL, set_href, set_download,
    update_element, click.
  cbn [requests elements object_urls saves unhandled].
  rewrite lookup_snoc_last. cbn [requests elements object_urls saves unhandled].
  rewrite insert_snoc_last, lookup_snoc_last.
  cbn [requests elements object_urls saves unhandled el_tag el_href el_download].
  rewrite insert_snoc_last, lookup_snoc_last.
  cbn [requests elements object_urls saves unhandled].
  rewrite lookup_snoc_last.
  reflexivity.
Qed.

Section DownloadFacts.

Variable transport : Request -> Settled Response.
Variables (rom : JSObject) (files : JSValue).

(** The request [downloadRomApi] builds. *)
Let request : Request :=
  mkRequest GET
    (template [Lit "/api/platforms/"; Sub (prop rom "p_slug");
               Lit "/roms/"; Sub (prop rom "id");
               Lit "/download?files=";
               Sub (JS.or files (prop rom "files"))])
    None (Some "blob").

Lemma downloadRomApi_fulfilled (w : World) (response : Response) :
  transport request = Fulfilled response ->
  downloadRomApi transport rom files w
  = (Fulfilled JUndefined,
     mkWorld (requests w ++ [request])
             (elements w
                ++ [mkElement "a" (Some (BlobURL (length (object_urls w))))
                      (Some (template [Sub (prop rom "r_name");
                                       Lit ".zip"]))])
             (object_urls w ++ [mkBlob [res_data response]])
             (saves w
                ++ [mkSave (template [Sub (prop rom "r_name"); Lit ".zip"])
                           (mkBlob [res_data response])])
             (unhandled w)).
Proof.
  intros Hok. unfold downloadRomApi.
  unfold bind at 1. unfold axios_get, axios_request. fold request.
  rewrite Hok. unfold bind at 1. unfold then_. unfold bind at 1.
  rewrite save_sequence. reflexivity.
Qed.

Lemma downloadRomApi_rejected (w : World) (e : JSValue) :
  transport request = Rejected e ->
  downloadRomApi transport rom files w
  = (Fulfilled JUndefined,
     mkWorld (requests w ++ [request]) (elements w) (object_urls w)
             (saves w) (unhandled w ++ [e])).
Proof.
  intros Hko. unfold downloadRomApi.
  unfold bind at 1. unfold axios_get, axios_request. fold request.
  rewrite Hko. reflexivity.
Qed.

Lemma downloadRomApi_issues (w : World) :
  issues (downloadRomApi transport rom files) w request.
Proof.
  unfold issues, after.
  destruct (transport request) as [response|e] eqn:H.
  - now rewrite (downloadRomApi_fulfilled w response H).
  - now rewrite (downloadRomApi_rejected w e H).
Qed.

End DownloadFacts.

(** ** Failure propagation *)

(** C1: each of [listPlatforms], [listRoms], [getRom], [updateRom],
    [deleteRom] and [searchRomMetadata] makes an HTTP call, and when the
    transport rejects that call the promise the caller receives is rejected
    with that very reason. *)
Theorem transport_failure_propagates
  (transport : Request -> Settled Response) (c : ApiCall) (w : World) :
  exists r : Request,
    issues (perform transport c) w r
    /\ (forall e : JSValue,
          transport r = Rejected e ->
          result (perform transport c) w = Rejected e).
Proof.
  destruct (perform_one_request transport c w) as [r Hr].
  exists r. unfold issues, after, result. rewrite Hr.
  cbn [fst snd]. split; [apply requests_with_request|].
  intros e Hfail. exact Hfail.
Qed.

Lemma transport_failure_propagates_witness :
  Forall
    (fun c : ApiCall =>
       result (perform network_down c) empty_world
       = Rejected (JStr "Network Error"))
    [listPlatforms;
     listRoms [("platform", JStr "snes")];
     getRom (JStr "snes") (JNum 42);
     updateRom zelda (JObj [("r_name", JStr "X")]);
     deleteRom zelda (JBool true);
     searchRomMetadata (JStr "zelda") (JStr "name") (JObj zelda)].
Proof.
  repeat
    (apply List.Forall_cons;
     [ match goal with
       | |- result (perform network_down ?c) empty_world = _ =>
           destruct (transport_failure_propagates network_down c empty_world)
             as [r [_ Hfail]];
           exact (Hfail (JStr "Network Error") eq_refl)
       end
     | ]).
  apply List.Forall_nil.
Defined.

(** C2: [downloadRom] hands the caller a promise fulfilled with
    [undefined], whatever the rom, the [files] argument, the world and the
    outcome of the HTTP call: two runs over different networks return the
    same thing.  When the HTTP call is rejected nothing is saved, and the
    reason ends up with no handler instead of reaching the caller. *)
Theorem downloadRom_result_ignores_transport
  (t1 t2 : Request -> Settled Response)
  (rom : JSObject) (files : JSValue) (w : World) :
  result (downloadRomApi t1 rom files) w = Fulfilled JUndefined
  /\ result (downloadRomApi t1 rom files) w
     = result (downloadRomApi t2 rom files) w
  /\ (forall (r : Request) (e : JSValue),
        issues (downloadRomApi t1 rom files) w r ->
        t1 r = Rejected e ->
        saves (after (downloadRomApi t1 rom files) w) = saves w
        /\ unhandled (after (downloadRomApi t1 rom files) w)
           = unhandled w ++ [e]).
Proof.
  assert (H : forall t, result (downloadRomApi t rom files) w
                        = Fulfilled JUndefined).
  { intros t. unfold result.
    destruct (t (mkRequest GET
                   (template [Lit "/api/platforms/"; Sub (prop rom "p_slug");
                              Lit "/roms/"; Sub (prop rom "id");
                              Lit "/download?files=";
                              Sub (JS.or files (prop rom "files"))])
                   None (Some "blob"))) as [response|e] eqn:Ht.
    - now rewrite (downloadRomApi_fulfilled t rom files w response Ht).
    - now rewrite (downloadRomApi_rejected t rom files w e Ht). }
  split; [apply H|]. split; [now rewrite !H|].
  intros r e Hlog Hfail.
  pose proof (downloadRomApi_issues t1 rom files w) as Hreq.
  unfold issues in Hlog, Hreq. rewrite Hreq in Hlog.
  apply app_inj_tail in Hlog as [_ Hr]. rewrite <- Hr in Hfail.
  unfold after. now rewrite (downloadRomApi_rejected t1 rom files w e Hfail).
Qed.

Lemma downloadRom_result_ignores_transport_witness :
  result (downloadRomApi network_down zelda JUndefined) empty_world
  = result (downloadRomApi network_up zelda JUndefined) empty_world
  /\ saves (after (downloadRomApi network_down zelda JUndefined) empty_world)
     = []
  /\ unhandled (after (downloadRomApi network_down zelda JUndefined)
                      empty_world)
     = [JStr "Network Error"].
Proof.
  destruct (downloadRom_result_ignores_transport network_down network_up
              zelda JUndefined empty_world) as (_ & Hsame & Hdrop).
  split; [exact Hsame|].
  apply (Hdrop (download_request "nes" 7 "a.nes,b.nes")
               (JStr "Network Error")); reflexivity.
Defined.

(** ** The requests of the forwarding operations *)

(** C3: [listRoms] issues one GET whose URL carries the platform and the
    query [cursor=..&size=..&search_term=..], each value verbatim; a field
    absent from the options object counts as [""], [60] and [""].  The
    size is a safe integer. *)
Theorem listRoms_query
  (transport : Request -> Settled Response) (arg : JSObject) (w : World)
  (platform : string)
  (cursor : option string) (size : option Z) (searchTerm : option string) :
  prop arg "platform" = JStr platform ->
  prop arg "cursor" = from_option JStr JUndefined cursor ->
  prop arg "size" = from_option JNum JUndefined size ->
  prop arg "searchTerm" = from_option JStr JUndefined searchTerm ->
  isSafeInteger (default 60%Z size) = true ->
  issues (fetchRomsApi transport arg) w
    (mkRequest GET
       ("/api/platforms/" +:+ platform
          +:+ "/roms?cursor=" +:+ default "" cursor
          +:+ "&size=" +:+ string_of_Z (default 60%Z size)
          +:+ "&search_term=" +:+ default "" searchTerm)
       None None).
Proof.
  intros Hp Hc Hs Ht _.
  unfold issues, after, fetchRomsApi. rewrite Hp, Hc, Hs, Ht.
  destruct cursor, size, searchTerm; reflexivity.
Qed.

Lemma listRoms_query_witness :
  issues (fetchRomsApi network_up
            [("platform", JStr "snes"); ("searchTerm", JStr "mario")])
         empty_world
         (mkRequest GET
            "/api/platforms/snes/roms?cursor=&size=60&search_term=mario"
            None None).
Proof.
  apply (listRoms_query network_up
           [("platform", JStr "snes"); ("searchTerm", JStr "mario")]
           empty_world "snes" None None (Some "mario")); reflexivity.
Defined.

(** C7: [getRom] issues one GET to [/api/platforms/{platform}/roms/{id}],
    with nothing after the id, no body and no config, for every platform
    slug and every id that is a safe integer; [getRom("snes", 42)]
    requests [/api/platforms/snes/roms/42]. *)
Theorem getRom_request
  (transport : Request -> Settled Response)
  (platform : string) (id : Z) (w : World) :
  isSafeInteger id = true ->
  issues (fetchRomApi transport (JStr platform) (JNum id)) w
    (mkRequest GET
       ("/api/platforms/" +:+ platform +:+ "/roms/" +:+ string_of_Z id)
       None None)
  /\ issues (fetchRomApi transport (JStr "snes") (JNum 42)) w
       (mkRequest GET "/api/platforms/snes/roms/42" None None).
Proof. intros _. split; reflexivity. Qed.

Lemma getRom_request_witness :
  issues (fetchRomApi network_up (JStr "snes") (JNum 42)) empty_world
    (mkRequest GET "/api/platforms/snes/roms/42" None None).
Proof.
  apply (getRom_request network_up "snes" 42 empty_world). reflexivity.
Defined.

(** C5: [updateRom] issues one PATCH to
    [/api/platforms/{rom.p_slug}/roms/{rom.id}] whose body is the object
    [{updatedRom: updatedFields}], for a rom whose slug is a string and
    whose id is a safe integer. *)
Theorem updateRom_request
  (transport : Request -> Settled Response)
  (rom : JSObject) (updatedFields : JSValue) (w : World)
  (p_slug : string) (id : Z) :
  prop rom "p_slug" = JStr p_slug ->
  prop rom "id" = JNum id ->
  isSafeInteger id = true ->
  issues (updateRomApi transport rom updatedFields) w
    (mkRequest PATCH
       ("/api/platforms/" +:+ p_slug +:+ "/roms/" +:+ string_of_Z id)
       (Some (JObj [("updatedRom", updatedFields)]))
       None).
Proof.
  intros Hs Hi _. unfold issues, after, updateRomApi.
  rewrite Hs, Hi. reflexivity.
Qed.

Lemma updateRom_request_witness :
  issues (updateRomApi network_up zelda (JObj [("r_name", JStr "X")]))
         empty_world
         (mkRequest PATCH "/api/platforms/nes/roms/7"
            (Some (JObj [("updatedRom", JObj [("r_name", JStr "X")])]))
            None).
Proof.
  apply (updateRom_request network_up zelda (JObj [("r_name", JStr "X")])
           empty_world "nes" 7); reflexivity.
Defined.

(** C6: [deleteRom] with a boolean flag issues one DELETE to
    [/api/platforms/{p_slug}/roms/{id}?filesystem={flag}], the flag printed
    as [true] or [false], for a rom whose slug is a string and whose id is
    a safe integer. *)
Theorem deleteRom_request
  (transport : Request -> Settled Response)
  (rom : JSObject) (deleteFromFilesystem : bool) (w : World)
  (p_slug : string) (id : Z) :
  prop rom "p_slug" = JStr p_slug ->
  prop rom "id" = JNum id ->
  isSafeInteger id = true ->
  issues (deleteRomApi transport rom (JBool deleteFromFilesystem)) w
    (mkRequest DELETE
       ("/api/platforms/" +:+ p_slug +:+ "/roms/" +:+ string_of_Z id
          +:+ "?filesystem="
          +:+ (if deleteFromFilesystem then "true" else "false"))
       None None).
Proof.
  intros Hs Hi _. unfold issues, after, deleteRomApi.
  rewrite Hs, Hi. destruct deleteFromFilesystem; reflexivity.
Qed.

Lemma deleteRom_request_witness :
  issues (deleteRomApi network_up
            [("p_slug", JStr "nes"); ("id", JNum 7)] (JBool true))
         empty_world
         (mkRequest DELETE "/api/platforms/nes/roms/7?filesystem=true"
            None None).
Proof.
  apply (deleteRom_request network_up
           [("p_slug", JStr "nes"); ("id", JNum 7)] true
           empty_world "nes" 7); reflexivity.
Defined.

(** C8: [searchRomMetadata] issues one PUT to [/api/search/roms/igdb] with
    the query [search_term={searchTerm}&search_by={searchBy}] and the body
    [{rom: rom}], and its promise settles exactly as the transport settles
    that request. *)
Theorem searchRomMetadata_request
  (transport : Request -> Settled Response)
  (searchTerm searchBy : string) (rom : JSValue) (w : World) :
  let r :=
    mkRequest PUT
      ("/api/search/roms/igdb?search_term=" +:+ searchTerm
         +:+ "&search_by=" +:+ searchBy)
      (Some (JObj [("rom", rom)]))
      None in
  issues (searchRomIGDBApi transport (JStr searchTerm) (JStr searchBy) rom)
         w r
  /\ result (searchRomIGDBApi transport (JStr searchTerm) (JStr searchBy) rom)
            w
     = transport r.
Proof. split; reflexivity. Qed.

(** ** The download helper *)

(** The request of [downloadRomApi] when [p_slug] is a string and [id] a
    safe integer: the endpoint of the rom, with [files || rom.files]
    printed after [files=]. *)
Lemma downloadRomApi_issues_typed
  (transport : Request -> Settled Response)
  (rom : JSObject) (files : JSValue) (w : World)
  (p_slug : string) (id : Z) :
  prop rom "p_slug" = JStr p_slug ->
  prop rom "id" = JNum id ->
  isSafeInteger id = true ->
  issues (downloadRomApi transport rom files) w
    (download_request p_slug id (ToString (JS.or files (prop rom "files")))).
Proof.
  intros Hs Hi _.
  pose proof (downloadRomApi_issues transport rom files w) as H.
  rewrite Hs, Hi in H. exact H.
Qed.

(** C4: with [files] undefined the [files] parameter of the download URL
    is [rom.files]; with an explicit [files] value, an array of file
    identifiers or a non-empty identifier, it is that value instead.  The
    rom's slug is a string and its id a safe integer. *)
Theorem downloadRom_files_choice
  (transport : Request -> Settled Response)
  (rom : JSObject) (files : JSValue) (w : World)
  (p_slug : string) (id : Z) :
  prop rom "p_slug" = JStr p_slug ->
  prop rom "id" = JNum id ->
  isSafeInteger id = true ->
  (files = JUndefined ->
   issues (downloadRomApi transport rom files) w
     (download_request p_slug id (ToString (prop rom "files"))))
  /\ (is_file_set files = true ->
      issues (downloadRomApi transport rom files) w
        (download_request p_slug id (ToString files))).
Proof.
  intros Hs Hi Hsafe.
  pose proof (downloadRomApi_issues_typed transport rom files w p_slug id
                Hs Hi Hsafe) as H.
  split.
  - intros ->. exact H.
  - intros Hset. rewrite or_truthy in H; [exact H|].
    destruct files; try discriminate Hset; [exact Hset | reflexivity].
Qed.

Lemma downloadRom_files_choice_witness :
  issues (downloadRomApi network_up zelda JUndefined) empty_world
         (download_request "nes" 7 "a.nes,b.nes")
  /\ issues (downloadRomApi network_up zelda (JStr "b.nes")) empty_world
            (download_request "nes" 7 "b.nes")
  /\ issues (downloadRomApi network_up zelda (JArr [])) empty_world
            (download_request "nes" 7 "").
Proof.
  split; [|split].
  - apply (downloadRom_files_choice network_up zelda JUndefined empty_world
             "nes" 7); reflexivity.
  - apply (downloadRom_files_choice network_up zelda (JStr "b.nes")
             empty_world "nes" 7); reflexivity.
  - apply (downloadRom_files_choice network_up zelda (JArr []) empty_world
             "nes" 7); reflexivity.
Defined.

(** C9: when the HTTP call of [downloadRom] is fulfilled, the run triggers
    exactly one save action; its file name is [rom.r_name] followed by
    [.zip] and its content is the blob made of the response payload. *)
Theorem downloadRom_saves_once
  (transport : Request -> Settled Response)
  (rom : JSObject) (files : JSValue) (w : World)
  (r : Request) (response : Response) :
  issues (downloadRomApi transport rom files) w r ->
  transport r = Fulfilled response ->
  saves (after (downloadRomApi transport rom files) w)
  = saves w ++ [mkSave (ToString (prop rom "r_name") +:+ ".zip")
                       (mkBlob [res_data response])].
Proof.
  intros Hlog Hok.
  pose proof (downloadRomApi_issues transport rom files w) as Hreq.
  unfold issues in Hlog, Hreq. rewrite Hreq in Hlog.
  apply app_inj_tail in Hlog as [_ Hr]. rewrite <- Hr in Hok.
  unfold after.
  now rewrite (downloadRomApi_fulfilled transport rom files w response Hok).
Qed.

Lemma downloadRom_saves_once_witness :
  saves (after (downloadRomApi network_up zelda JUndefined) empty_world)
  = [mkSave "Zelda.zip" (mkBlob [JStr "payload"])].
Proof.
  apply (downloadRom_saves_once network_up zelda JUndefined empty_world
           (download_request "nes" 7 "a.nes,b.nes")
           (mkResponse 200 (JStr "payload"))); reflexivity.
Defined.

(** C10: when [files], or [rom.files] in its absence, is an array of file
    names, the [files] parameter of the download URL is the names joined
    with commas.  The rom's slug is a string and its id a safe integer. *)
Theorem downloadRom_files_list
  (transport : Request -> Settled Response)
  (rom : JSObject) (names : list string) (w : World)
  (p_slug : string) (id : Z) :
  prop rom "p_slug" = JStr p_slug ->
  prop rom "id" = JNum id ->
  isSafeInteger id = true ->
  issues (downloadRomApi transport rom (JArr (List.map JStr names))) w
    (download_request p_slug id (String.concat "," names))
  /\ (prop rom "files" = JArr (List.map JStr names) ->
      issues (downloadRomApi transport rom JUndefined) w
        (download_request p_slug id (String.concat "," names))).
Proof.
  intros Hs Hi Hsafe. split.
  - pose proof (downloadRomApi_issues_typed transport rom
                  (JArr (List.map JStr names)) w p_slug id Hs Hi Hsafe)
      as H.
    rewrite or_truthy in H by reflexivity.
    now rewrite ToString_string_array in H.
  - intros Hf.
    pose proof (downloadRomApi_issues_typed transport rom JUndefined w
                  p_slug id Hs Hi Hsafe) as H.
    rewrite or_falsy in H by reflexivity.
    now rewrite Hf, ToString_string_array in H.
Qed.

Lemma downloadRom_files_list_witness :
  issues (downloadRomApi network_up zelda (JArr [JStr "a"; JStr "b"]))
         empty_world
         (download_request "nes" 7 "a,b")
  /\ issues (downloadRomApi network_up zelda JUndefined) empty_world
            (download_request "nes" 7 "a.nes,b.nes").
Proof.
  split.
  - apply (downloadRom_files_list network_up zelda ["a"; "b"] empty_world
             "nes" 7); reflexivity.
  - apply (downloadRom_files_list network_up zelda ["a.nes"; "b.nes"]
             empty_world "nes" 7); reflexivity.
Defined.

(** ** Further properties of the client *)

Lemma string_app_nil (b : string) : "" +:+ b = b.
Proof. reflexivity. Qed.

Lemma string_app_cons (ch : ascii) (a b : string) :
  String ch a +:+ b = String ch (a +:+ b).
Proof. reflexivity. Qed.

Lemma string_app_assoc (a b c : string) :
  (a +:+ b) +:+ c = a +:+ (b +:+ c).
Proof.
  induction a as [|ch a IH]; [reflexivity|].
  rewrite !string_app_cons. f_equal. exact IH.
Qed.

Lemma string_app_length (a b : string) :
  String.length (a +:+ b) = String.length a + String.length b.
Proof.
  induction a as [|ch a IH]; [reflexivity|].
  rewrite string_app_cons. cbn [String.length]. now rewrite IH.
Qed.

(** Appending a non-empty string changes a string. *)
Lemma string_app_neq (a b : string) :
  0 < String.length b -> a +:+ b <> a.
Proof.
  intros Hb Heq. apply (f_equal String.length) in Heq.
  rewrite string_app_length in Heq. lia.
Qed.

(** Right-nested normal form of string concatenations. *)
Create Rewrite HintDb string_norm.
#[local] Hint Rewrite string_app_assoc string_app_cons string_app_nil
  : string_norm.

(** Every forwarding operation makes exactly one HTTP call, hands back the
    settlement of that call as it is (a fulfilled response as well as a
    rejection), and leaves the DOM, the object-URL registry, the saves and
    the unhandled rejections alone. *)
Theorem forwarding_operations_frame
  (transport : Request -> Settled Response) (c : ApiCall) (w : World) :
  exists r : Request,
    issues (perform transport c) w r
    /\ result (perform transport c) w = transport r
    /\ elements (after (perform transport c) w) = elements w
    /\ object_urls (after (perform transport c) w) = object_urls w
    /\ saves (after (perform transport c) w) = saves w
    /\ unhandled (after (perform transport c) w) = unhandled w.
Proof.
  destruct (perform_one_request transport c w) as [r Hr].
  exists r. unfold issues, after, result. rewrite Hr.
  repeat split.
Qed.

(** [listRoms] does not escape its values: a cursor that contains the text
    of the following separators yields the same request as a search term
    that contains it, although the two option objects differ.  The size is
    a safe integer. *)
Theorem listRoms_query_ambiguous
  (transport : Request -> Settled Response) (w : World)
  (platform a b c : string) (size : Z) :
  isSafeInteger size = true ->
  let sep := "&size=" +:+ string_of_Z size +:+ "&search_term=" in
  fetchRomsApi transport
    [("platform", JStr platform); ("cursor", JStr (a +:+ sep +:+ b));
     ("size", JNum size); ("searchTerm", JStr c)] w
  = fetchRomsApi transport
      [("platform", JStr platform); ("cursor", JStr a);
       ("size", JNum size); ("searchTerm", JStr (b +:+ sep +:+ c))] w
  /\ JStr (a +:+ sep +:+ b) <> JStr a.
Proof.
  intros _ sep. split.
  - unfold fetchRomsApi, bind, axios_get, axios_request, async_return, ret,
      template.
    cbn [prop String.eqb Ascii.eqb Bool.eqb defaulted List.map part_string
         ToString String.concat].
    subst sep. autorewrite with string_norm. reflexivity.
  - intros H. injection H as H. revert H. apply string_app_neq.
    subst sep. rewrite !string_app_length. cbn [String.length]. lia.
Qed.

Lemma listRoms_query_ambiguous_witness :
  fetchRomsApi network_up
    [("platform", JStr "snes");
     ("cursor", JStr "x&size=10&search_term=y");
     ("size", JNum 10); ("searchTerm", JStr "z")] empty_world
  = fetchRomsApi network_up
      [("platform", JStr "snes"); ("cursor", JStr "x");
       ("size", JNum 10);
       ("searchTerm", JStr "y&size=10&search_term=z")] empty_world.
Proof.
  destruct (listRoms_query_ambiguous network_up empty_world
              "snes" "x" "y" "z" 10 eq_refl) as [Hsame _].
  exact Hsame.
Defined.

(** [getRom] does not escape its arguments either: a platform that contains
    [/roms/] and an id that contains it address the same URL. *)
Theorem getRom_path_ambiguous
  (transport : Request -> Settled Response) (w : World) (a b c : string) :
  fetchRomApi transport (JStr (a +:+ "/roms/" +:+ b)) (JStr c) w
  = fetchRomApi transport (JStr a) (JStr (b +:+ "/roms/" +:+ c)) w
  /\ JStr (a +:+ "/roms/" +:+ b) <> JStr a.
Proof.
  split.
  - unfold fetchRomApi, bind, axios_get, axios_request, async_return, ret,
      template.
    cbn [List.map part_string ToString String.concat].
    autorewrite with string_norm. reflexivity.
  - intros H. injection H as H. revert H. apply string_app_neq.
    rewrite string_app_length. cbn [String.length]. lia.
Qed.

(** A run hands one request to axios, so the request it [issues] is
    determined. *)
Lemma issues_unique {A} (c : Eff A) (w : World) (r r' : Request) :
  issues c w r -> issues c w r' -> r = r'.
Proof.
  unfold issues. intros H H'. rewrite H in H'.
  now apply app_inj_tail in H' as [_ ?].
Qed.

(** [downloadRomApi] looks at [files] only through the text that
    [files || rom.files] prints. *)
Lemma downloadRomApi_files_ext
  (transport : Request -> Settled Response)
  (rom : JSObject) (files files' : JSValue) (w : World) :
  ToString (JS.or files (prop rom "files"))
  = ToString (JS.or files' (prop rom "files")) ->
  downloadRomApi transport rom files w = downloadRomApi transport rom files' w.
Proof.
  intros H. unfold downloadRomApi, template.
  cbn [List.map part_string]. now rewrite H.
Qed.

Lemma ToBoolean_JStr_nonempty (s : string) :
  s <> "" -> ToBoolean (JStr s) = true.
Proof.
  intros Hs. cbn. destruct (String.eqb_spec s ""); [contradiction|reflexivity].
Qed.

(** Passing the file names as one comma-separated string runs exactly like
    passing them as an array, as long as that string is not empty. *)
Theorem downloadRom_joined_string_as_list
  (transport : Request -> Settled Response)
  (rom : JSObject) (names : list string) (w : World) :
  String.concat "," names <> "" ->
  downloadRomApi transport rom (JStr (String.concat "," names)) w
  = downloadRomApi transport rom (JArr (List.map JStr names)) w.
Proof.
  intros Hne. apply downloadRomApi_files_ext.
  rewrite (or_truthy _ _ (ToBoolean_JStr_nonempty _ Hne)).
  rewrite or_truthy by reflexivity.
  now rewrite ToString_string_array.
Qed.

Lemma downloadRom_joined_string_as_list_witness :
  downloadRomApi network_up zelda (JStr "a.nes,b.nes") empty_world
  = downloadRomApi network_up zelda (JArr [JStr "a.nes"; JStr "b.nes"])
      empty_world.
Proof.
  apply (downloadRom_joined_string_as_list network_up zelda
           ["a.nes"; "b.nes"] empty_world).
  discriminate.
Defined.

(** A comma inside a file name is not told apart from the separator: two
    names, and one name made of both with a comma between, run alike. *)
Theorem downloadRom_comma_in_name
  (transport : Request -> Settled Response)
  (rom : JSObject) (x y : string) (others : list string) (w : World) :
  downloadRomApi transport rom
    (JArr (List.map JStr (x :: y :: others))) w
  = downloadRomApi transport rom
      (JArr (List.map JStr ((x +:+ "," +:+ y) :: others))) w
  /\ List.map JStr (x :: y :: others)
     <> List.map JStr ((x +:+ "," +:+ y) :: others).
Proof.
  split; [|intros H; apply (f_equal List.length) in H; cbn in H; lia].
  apply downloadRomApi_files_ext.
  rewrite !or_truthy by reflexivity.
  rewrite !ToString_string_array.
  destruct others as [|z others]; cbn [String.concat];
    autorewrite with string_norm; reflexivity.
Qed.

(** The defaults of [listRoms] apply to missing fields only: fields that
    are present and [null] are printed as [null]. *)
Theorem listRoms_null_not_defaulted
  (transport : Request -> Settled Response) (arg : JSObject) (w : World)
  (platform : string) :
  prop arg "platform" = JStr platform ->
  prop arg "cursor" = JNull ->
  prop arg "size" = JNull ->
  prop arg "searchTerm" = JNull ->
  issues (fetchRomsApi transport arg) w
    (mkRequest GET
       ("/api/platforms/" +:+ platform
          +:+ "/roms?cursor=null&size=null&search_term=null")
       None None).
Proof.
  intros Hp Hc Hs Ht.
  unfold issues, after, fetchRomsApi. rewrite Hp, Hc, Hs, Ht.
  reflexivity.
Qed.

Lemma listRoms_null_not_defaulted_witness :
  issues (fetchRomsApi network_up
            [("platform", JStr "snes"); ("cursor", JNull); ("size", JNull);
             ("searchTerm", JNull)])
         empty_world
         (mkRequest GET
            "/api/platforms/snes/roms?cursor=null&size=null&search_term=null"
            None None).
Proof.
  apply (listRoms_null_not_defaulted network_up
           [("platform", JStr "snes"); ("cursor", JNull); ("size", JNull);
            ("searchTerm", JNull)]
           empty_world "snes"); reflexivity.
Defined.

(** A rom without [r_name] is saved, on success, as [undefined.zip]. *)
Theorem downloadRom_missing_name
  (transport : Request -> Settled Response)
  (rom : JSObject) (files : JSValue) (w : World)
  (r : Request) (response : Response) :
  prop rom "r_name" = JUndefined ->
  issues (downloadRomApi transport rom files) w r ->
  transport r = Fulfilled response ->
  saves (after (downloadRomApi transport rom files) w)
  = saves w ++ [mkSave "undefined.zip" (mkBlob [res_data response])].
Proof.
  intros Hname Hlog Hok.
  rewrite (issues_unique _ _ _ _ Hlog
             (downloadRomApi_issues transport rom files w)) in Hok.
  unfold after.
  rewrite (downloadRomApi_fulfilled transport rom files w response Hok).
  cbn [snd saves]. now rewrite Hname.
Qed.

Lemma downloadRom_missing_name_witness :
  saves (after (downloadRomApi network_up
                  [("p_slug", JStr "nes"); ("id", JNum 7)] (JStr "a.nes"))
               empty_world)
  = [mkSave "undefined.zip" (mkBlob [JStr "payload"])].
Proof.
  apply (downloadRom_missing_name network_up
           [("p_slug", JStr "nes"); ("id", JNum 7)] (JStr "a.nes")
           empty_world (download_request "nes" 7 "a.nes")
           (mkResponse 200 (JStr "payload"))); reflexivity.
Defined.

(** When the rom has no [files] and the [files] argument is falsy
    (omitted, [null], [false], [0] or the empty string), the request
    carries [files=undefined].  The rom's slug is a string and its id a
    safe integer. *)
Theorem downloadRom_missing_files
  (transport : Request -> Settled Response)
  (rom : JSObject) (files : JSValue) (w : World)
  (p_slug : string) (id : Z) :
  prop rom "p_slug" = JStr p_slug ->
  prop rom "id" = JNum id ->
  isSafeInteger id = true ->
  prop rom "files" = JUndefined ->
  ToBoolean files = false ->
  issues (downloadRomApi transport rom files) w
    (download_request p_slug id "undefined").
Proof.
  intros Hs Hi Hsafe Hfiles Hfalsy.
  pose proof (downloadRomApi_issues_typed transport rom files w p_slug id
                Hs Hi Hsafe) as H.
  now rewrite (or_falsy _ _ Hfalsy), Hfiles in H.
Qed.

Lemma downloadRom_missing_files_witness :
  issues (downloadRomApi network_up
            [("p_slug", JStr "nes"); ("id", JNum 7)] (JStr ""))
         empty_world
         (download_request "nes" 7 "undefined").
Proof.
  apply (downloadRom_missing_files network_up
           [("p_slug", JStr "nes"); ("id", JNum 7)] (JStr "")
           empty_world "nes" 7); reflexivity.
Defined.

(** [files || rom.files] falls back on every falsy [files], not only on
    [undefined]: with [null], [false], [0] or the empty string passed as
    [files], the request carries [rom.files].  The rom's slug is a string
    and its id a safe integer. *)
Theorem downloadRom_falsy_files_fall_back
  (transport : Request -> Settled Response)
  (rom : JSObject) (files : JSValue) (w : World)
  (p_slug : string) (id : Z) :
  prop rom "p_slug" = JStr p_slug ->
  prop rom "id" = JNum id ->
  isSafeInteger id = true ->
  ToBoolean files = false ->
  issues (downloadRomApi transport rom files) w
    (download_request p_slug id (ToString (prop rom "files"))).
Proof.
  intros Hs Hi Hsafe Hfalsy.
  pose proof (downloadRomApi_issues_typed transport rom files w p_slug id
                Hs Hi Hsafe) as H.
  now rewrite (or_falsy _ _ Hfalsy) in H.
Qed.

Lemma downloadRom_falsy_files_fall_back_witness :
  issues (downloadRomApi network_up zelda (JStr "")) empty_world
         (download_request "nes" 7 "a.nes,b.nes").
Proof.
  apply (downloadRom_falsy_files_fall_back network_up zelda (JStr "")
           empty_world "nes" 7); reflexivity.
Defined.

(** After a successful download nothing is cleaned up: the anchor stays in
    the element heap, the object URL it points to is still registered with
    the blob of the response, and every earlier registration is kept. *)
Theorem downloadRom_object_url_stays
  (transport : Request -> Settled Response)
  (rom : JSObject) (files : JSValue) (w : World)
  (r : Request) (response : Response) :
  issues (downloadRomApi transport rom files) w r ->
  transport r = Fulfilled response ->
  elements (after (downloadRomApi transport rom files) w)
  = elements w
      ++ [mkElement "a" (Some (BlobURL (length (object_urls w))))
            (Some (ToString (prop rom "r_name") +:+ ".zip"))]
  /\ object_urls (after (downloadRomApi transport rom files) w)
       !! length (object_urls w)
     = Some (mkBlob [res_data response])
  /\ (forall (i : nat) (b : Blob),
        object_urls w !! i = Some b ->
        object_urls (after (downloadRomApi transport rom files) w) !! i
        = Some b)
  /\ unhandled (after (downloadRomApi transport rom files) w) = unhandled w.
Proof.
  intros Hlog Hok.
  rewrite (issues_unique _ _ _ _ Hlog
             (downloadRomApi_issues transport rom files w)) in Hok.
  unfold after.
  rewrite (downloadRomApi_fulfilled transport rom files w response Hok).
  cbn [snd elements object_urls unhandled].
  split; [reflexivity|]. split; [apply lookup_snoc_last|].
  split; [|reflexivity].
  intros i b Hi. rewrite lookup_app_l; [exact Hi|].
  now apply lookup_lt_Some in Hi.
Qed.

Lemma downloadRom_object_url_stays_witness :
  object_urls (after (downloadRomApi network_up zelda JUndefined)
                     (mkWorld [] [] [mkBlob [JStr "earlier"]] [] []))
  !! 1
  = Some (mkBlob [JStr "payload"]).
Proof.
  destruct (downloadRom_object_url_stays network_up zelda JUndefined
              (mkWorld [] [] [mkBlob [JStr "earlier"]] [] [])
              (download_request "nes" 7 "a.nes,b.nes")
              (mkResponse 200 (JStr "payload")) eq_refl eq_refl)
    as (_ & Hslot & _).
  exact Hslot.
Defined.

(** [downloadRom] makes exactly one HTTP call whatever its outcome (no
    retry): a GET without body that asks for a blob.  When that call is
    rejected the element heap and the object-URL registry are untouched. *)
Theorem downloadRom_single_request
  (transport : Request -> Settled Response)
  (rom : JSObject) (files : JSValue) (w : World) :
  exists r : Request,
    issues (downloadRomApi transport rom files) w r
    /\ req_method r = GET
    /\ req_data r = None
    /\ req_responseType r = Some "blob"
    /\ (forall e : JSValue,
          transport r = Rejected e ->
          elements (after (downloadRomApi transport rom files) w)
          = elements w
          /\ object_urls (after (downloadRomApi transport rom files) w)
             = object_urls w).
Proof.
  eexists. split; [apply downloadRomApi_issues|].
  repeat split; unfold after;
    now rewrite (downloadRomApi_rejected transport rom files w e H).
Qed.

(** [deleteRom] called without its flag prints the missing argument:
    the request carries [filesystem=undefined].  The rom's slug is a
    string and its id a safe integer. *)
Theorem deleteRom_flag_omitted
  (transport : Request -> Settled Response)
  (rom : JSObject) (w : World) (p_slug : string) (id : Z) :
  prop rom "p_slug" = JStr p_slug ->
  prop rom "id" = JNum id ->
  isSafeInteger id = true ->
  issues (deleteRomApi transport rom JUndefined) w
    (mkRequest DELETE
       ("/api/platforms/" +:+ p_slug +:+ "/roms/" +:+ string_of_Z id
          +:+ "?filesystem=undefined")
       None None).
Proof.
  intros Hs Hi _. unfold issues, after, deleteRomApi.
  rewrite Hs, Hi. reflexivity.
Qed.

Lemma deleteRom_flag_omitted_witness :
  issues (deleteRomApi network_up zelda JUndefined) empty_world
         (mkRequest DELETE "/api/platforms/nes/roms/7?filesystem=undefined"
            None None).
Proof.
  apply (deleteRom_flag_omitted network_up zelda empty_world "nes" 7);
    reflexivity.
Defined.

(** The four operations on one rom address the same resource: [updateRom]
    uses the URL that [getRom] fetches for [rom.p_slug] and [rom.id], and
    [deleteRom] and [downloadRom] use that URL followed by their suffix. *)
Theorem rom_operations_share_path
  (transport : Request -> Settled Response)
  (rom : JSObject) (updatedRom deleteFromFs files : JSValue) (w : World)
  (rg ru rd rl : Request) :
  issues (fetchRomApi transport (prop rom "p_slug") (prop rom "id")) w rg ->
  issues (updateRomApi transport rom updatedRom) w ru ->
  issues (deleteRomApi transport rom deleteFromFs) w rd ->
  issues (downloadRomApi transport rom files) w rl ->
  req_url ru = req_url rg
  /\ req_url rd = req_url rg +:+ "?filesystem=" +:+ ToString deleteFromFs
  /\ req_url rl
     = req_url rg +:+ "/download?files="
         +:+ ToString (JS.or files (prop rom "files")).
Proof.
  intros Hg Hu Hd Hl.
  rewrite (issues_unique _ _ _ _ Hl
             (downloadRomApi_issues transport rom files w)).
  unfold issues, after, fetchRomApi, updateRomApi, deleteRomApi in Hg, Hu, Hd.
  cbn in Hg, Hu, Hd.
  apply app_inj_tail in Hg as [_ <-].
  apply app_inj_tail in Hu as [_ <-].
  apply app_inj_tail in Hd as [_ <-].
  unfold template. cbn [req_url List.map part_string String.concat].
  autorewrite with string_norm. repeat split.
Qed.

Lemma rom_operations_share_path_witness :
  req_url (download_request "nes" 7 "a.nes,b.nes")
  = "/api/platforms/nes/roms/7" +:+ "/download?files=" +:+ "a.nes,b.nes".
Proof.
  destruct (rom_operations_share_path network_up zelda
              (JObj [("r_name", JStr "X")]) (JBool true) JUndefined
              empty_world
              (mkRequest GET "/api/platforms/nes/roms/7" None None)
              (mkRequest PATCH "/api/platforms/nes/roms/7"
                 (Some (JObj [("updatedRom", JObj [("r_name", JStr "X")])]))
                 None)
              (mkRequest DELETE "/api/platforms/nes/roms/7?filesystem=true"
                 None None)
              (download_request "nes" 7 "a.nes,b.nes")
              eq_refl eq_refl eq_refl eq_refl)
    as (_ & _ & Hdownload).
  exact Hdownload.
Defined.
